(** * ciscosparkapi: the client constructor and the REST session layer

    A shallow embedding of [ciscosparkapi/__init__.py] (the [CiscoSparkAPI]
    constructor) together with a model of the REST session, rate-limit policy
    and pagination layer it builds on.

    Python is dynamically typed, so constructor arguments are values of a
    small universe [PyVal]; exceptions are an explicit outcome; the process
    environment, the remote server and the trace of observable effects
    (environment reads, HTTP requests, sleeps) live in an explicit [World]
    that every effectful operation threads through. *)

From Stdlib Require Import ZArith NArith Lia Ascii String.
From stdpp Require Import base option strings list gmap.

Set Warnings "-register-all".

Local Open Scope Z_scope.
Local Open Scope string_scope.

(** ** Python values *)

Inductive PyVal : Type :=
| PyNone
| PyBool (b : bool)
| PyInt (z : Z)
| PyStr (s : string)
| PyBytes (raw : string)
| PyList (elems : list PyVal).

(** [x is None] *)
Definition is_None (v : PyVal) : bool :=
  match v with PyNone => true | _ => false end.

(** [isinstance(v, string_types)]: [six.string_types] is [(str,)]. *)
Definition isinstance_string_types (v : PyVal) : bool :=
  match v with PyStr _ => true | _ => false end.

(** [isinstance(v, int)]: [bool] is a subclass of [int]. *)
Definition isinstance_int (v : PyVal) : bool :=
  match v with PyInt _ | PyBool _ => true | _ => false end.

(** The integer an [int] instance denotes ([True == 1], [False == 0]). *)
Definition int_value (v : PyVal) : option Z :=
  match v with
  | PyInt z => Some z
  | PyBool b => Some (if b then 1 else 0)
  | _ => None
  end.

Definition nonempty (s : string) : bool :=
  match s with EmptyString => false | String _ _ => true end.

(** Python truth value testing, as used by [x if x else y] and [not x]. *)
Definition truthy (v : PyVal) : bool :=
  match v with
  | PyNone => false
  | PyBool b => b
  | PyInt z => negb (Z.eqb z 0)
  | PyStr s => nonempty s
  | PyBytes raw => nonempty raw
  | PyList elems => match elems with [] => false | _ :: _ => true end
  end.

(** ** Exceptions *)

Inductive Exn : Type :=
| AssertionError
| ciscosparkapiException (message : string)
| TransportError (message : string)
| RateLimitExceededError
| SparkApiError (status : Z) (trackingId : option string) (message : string)
| MalformedResponseError.

(** The specification calls the package's base exception raised for bad
    configuration [ConfigurationError]. *)
Definition is_ConfigurationError (e : Exn) : bool :=
  match e with ciscosparkapiException _ => true | _ => false end.

Definition is_AssertionError (e : Exn) : bool :=
  match e with AssertionError => true | _ => false end.

Inductive Outcome (A : Type) : Type :=
| Ok (a : A)
| Raise (e : Exn).
Arguments Ok {A} a.
Arguments Raise {A} e.

(** ** JSON documents, HTTP requests and responses *)

Inductive JSON : Type :=
| JNull
| JBool (b : bool)
| JNumber (z : Z)
| JString (s : string)
| JArray (elems : list JSON)
| JObject (fields : list (string * JSON)).

Inductive Method : Type := GET | POST | PUT | DELETE.

Definition Headers : Type := list (string * string).

Record Request : Type := mkRequest {
  req_method : Method;
  req_url : string;
  req_headers : Headers;
  req_params : list (string * string);
  req_json : option JSON;
  req_timeout : Z
}.

(** Modelled from the spec: the transport decodes JSON (section 4.1,
    [body_bytes_or_json]); a response body is either the decoded document
    or, when the bytes do not parse as JSON, the raw text. *)
Inductive Body : Type :=
| BodyJson (doc : JSON)
| BodyRaw (text : string).

Record Response : Type := mkResponse {
  status_code : Z;
  resp_headers : Headers;
  resp_body : Body
}.

Inductive TransportResult : Type :=
| Responded (r : Response)
| TransportFailure (message : string).

(** ** The world *)

Inductive Event : Type :=
| EvEnvGet (name : string)
| EvRequest (r : Request)
| EvSleep (seconds : N).

(** [environ] is [os.environ]; [server] is the remote service, a
    deterministic function of the requests it has received so far and of the
    current one; [trace] records every effect, oldest first. *)
Record World : Type := mkWorld {
  environ : gmap string string;
  server : list Request -> Request -> TransportResult;
  trace : list Event
}.

Definition log (ev : Event) (w : World) : World :=
  {| environ := environ w; server := server w; trace := trace w ++ [ev] |}.

Fixpoint requests_of (t : list Event) : list Request :=
  match t with
  | [] => []
  | EvRequest r :: t' => r :: requests_of t'
  | _ :: t' => requests_of t'
  end.

Fixpoint sleeps_of (t : list Event) : list N :=
  match t with
  | [] => []
  | EvSleep s :: t' => s :: sleeps_of t'
  | _ :: t' => sleeps_of t'
  end.

Fixpoint env_reads_of (t : list Event) : list string :=
  match t with
  | [] => []
  | EvEnvGet k :: t' => k :: env_reads_of t'
  | _ :: t' => env_reads_of t'
  end.

(** ** The effect monad: state passing over [World] with exceptions *)

Definition M (A : Type) : Type := World -> Outcome A * World.

Definition M_ret {A} (a : A) : M A := fun w => (Ok a, w).

Definition M_bind {A B} (f : A -> M B) (m : M A) : M B :=
  fun w =>
    match m w with
    | (Ok a, w') => f a w'
    | (Raise e, w') => (Raise e, w')
    end.

#[global] Instance M_mret : MRet M := @M_ret.
#[global] Instance M_mbind : MBind M := @M_bind.

Definition raise {A} (e : Exn) : M A := fun w => (Raise e, w).

(** The [assert] statement. *)
Definition assert_ (b : bool) : M unit :=
  if b then mret tt else raise AssertionError.

(** [os.environ.get(name, None)] *)
Definition os_environ_get (name : string) : M PyVal :=
  fun w =>
    (Ok (match environ w !! name with Some v => PyStr v | None => PyNone end),
     log (EvEnvGet name) w).

(** Modelled from the spec: [HttpTransport.send] (section 4.1), one HTTP
    exchange; a network or timeout failure is a [TransportError], every
    status code is handed back to the caller. *)
Definition send (r : Request) : M Response :=
  fun w =>
    let w' := log (EvRequest r) w in
    match server w (requests_of (trace w)) r with
    | Responded resp => (Ok resp, w')
    | TransportFailure msg => (Raise (TransportError msg), w')
    end.

(** [time.sleep(seconds)] *)
Definition sleep (seconds : N) : M unit :=
  fun w => (Ok tt, log (EvSleep seconds) w).

(** ** The REST session interface

    [ciscosparkapi/__init__.py] imports [RestSession] from
    [ciscosparkapi/restsession.py]; the constructor below only relies on the
    session's constructor and on its three read-only attributes. *)

Class RestSessionAPI : Type := {
  Session : Type;
  RestSession : PyVal -> PyVal -> PyVal -> M Session;
  session_access_token : Session -> PyVal;
  session_base_url : Session -> PyVal;
  session_timeout : Session -> PyVal
}.

(** ** [ciscosparkapi/__init__.py] *)

Definition DEFAULT_BASE_URL : string := "https://api.ciscospark.com/v1/".
Definition DEFAULT_TIMEOUT : Z := 60.

Definition error_message : string :=
  "You must provide an access token to interact " ++
  "with the Cisco Spark APIs, either via the " ++
  "access_token argument or via a " ++
  "SPARK_ACCESS_TOKEN environment variable.  " ++
  "None provided.".

(** The arguments of one call of the constructor; [None] is an omitted
    argument, which takes the default of the signature
    [__init__(self, access_token=None, base_url=DEFAULT_BASE_URL,
              timeout=DEFAULT_TIMEOUT)]. *)
Record Args : Type := mkArgs {
  arg_access_token : option PyVal;
  arg_base_url : option PyVal;
  arg_timeout : option PyVal
}.

Definition bound_access_token (a : Args) : PyVal :=
  default PyNone (arg_access_token a).
Definition bound_base_url (a : Args) : PyVal :=
  default (PyStr DEFAULT_BASE_URL) (arg_base_url a).
Definition bound_timeout (a : Args) : PyVal :=
  default (PyInt DEFAULT_TIMEOUT) (arg_timeout a).

(** The token line 108 settles on, when there is one: the argument if it
    is a non-empty string, and otherwise the value of [SPARK_ACCESS_TOKEN]. *)
Inductive resolves_to (a : Args) (w : World) (tok : string) : Prop :=
| from_argument :
    bound_access_token a = PyStr tok -> resolves_to a w tok
| from_environment :
    bound_access_token a = PyNone \/ bound_access_token a = PyStr "" ->
    environ w !! "SPARK_ACCESS_TOKEN" = Some tok -> resolves_to a w tok.

Section Client.
Context `{RS : RestSessionAPI}.

(** Modelled from the spec: the per-resource wrappers of the missing
    [ciscosparkapi/api/] modules (section 6: thin collaborators that turn
    each operation into one call on the session).  Creating one only keeps
    the session it is given ([AccessTokensAPI] keeps a base URL and a
    timeout). *)
Inductive Wrapper : Type :=
| PeopleAPI (s : Session)
| RoomsAPI (s : Session)
| MembershipsAPI (s : Session)
| MessagesAPI (s : Session)
| TeamsAPI (s : Session)
| TeamMembershipsAPI (s : Session)
| WebhooksAPI (s : Session)
| AccessTokensAPI (base_url : PyVal) (timeout : PyVal).

Record CiscoSparkAPI : Type := mkCiscoSparkAPI {
  _session : Session;
  people : Wrapper;
  rooms : Wrapper;
  memberships : Wrapper;
  messages : Wrapper;
  teams : Wrapper;
  team_memberships : Wrapper;
  webhooks : Wrapper;
  access_tokens : Wrapper
}.

(** The three properties of the class. *)
Definition access_token (self : CiscoSparkAPI) : PyVal :=
  session_access_token (_session self).
Definition base_url (self : CiscoSparkAPI) : PyVal :=
  session_base_url (_session self).
Definition timeout (self : CiscoSparkAPI) : PyVal :=
  session_timeout (_session self).

(** Lines 124-132: the wrappers around a freshly created session. *)
Definition wrap (session : Session) (timeout : PyVal) : CiscoSparkAPI :=
  {| _session := session;
     people := PeopleAPI session;
     rooms := RoomsAPI session;
     memberships := MembershipsAPI session;
     messages := MessagesAPI session;
     teams := TeamsAPI session;
     team_memberships := TeamMembershipsAPI session;
     webhooks := WebhooksAPI session;
     access_tokens := AccessTokensAPI (session_base_url session) timeout |}.

(** [CiscoSparkAPI.__init__] *)
Definition CiscoSparkAPI__init__ (a : Args) : M CiscoSparkAPI :=
  let access_token := bound_access_token a in
  let base_url := bound_base_url a in
  let timeout := bound_timeout a in
  assert_ (is_None access_token || isinstance_string_types access_token);;
  assert_ (isinstance_string_types base_url);;
  assert_ (isinstance_int timeout);;
  spark_access_token ← os_environ_get "SPARK_ACCESS_TOKEN";
  let access_token :=
    if truthy access_token then access_token else spark_access_token in
  if negb (truthy access_token)
  then raise (ciscosparkapiException error_message)
  else
    session ← RestSession access_token base_url timeout;
    mret (wrap session timeout).

(** The three assertions of lines 104-106, as one test. *)
Definition well_typed (a : Args) : bool :=
  (is_None (bound_access_token a)
   || isinstance_string_types (bound_access_token a))
  && isinstance_string_types (bound_base_url a)
  && isinstance_int (bound_timeout a).

(** The world in which [RestSession] is entered: the environment has been
    read once, nothing else has happened. *)
Definition after_env_read (w : World) : World :=
  log (EvEnvGet "SPARK_ACCESS_TOKEN") w.

(** What the constructor does once a token has been resolved. *)
Definition open_session (tok : string) (a : Args) : M CiscoSparkAPI :=
  session ← RestSession (PyStr tok) (bound_base_url a) (bound_timeout a);
  mret (wrap session (bound_timeout a)).

End Client.

(** ** The REST session, rate-limit policy and pagination layer

    [ciscosparkapi/restsession.py] is the module the constructor delegates
    to.  The definitions of this part follow sections 3, 4, 6 and 7 of the
    design specification. *)

(** *** Headers and JSON accessors *)

Fixpoint header_get (name : string) (h : Headers) : option string :=
  match h with
  | [] => None
  | (k, v) :: h' => if String.eqb k name then Some v else header_get name h'
  end.

Fixpoint assoc_get (name : string) (fs : list (string * JSON)) : option JSON :=
  match fs with
  | [] => None
  | (k, v) :: fs' => if String.eqb k name then Some v else assoc_get name fs'
  end.

Definition json_field (name : string) (doc : JSON) : option JSON :=
  match doc with JObject fs => assoc_get name fs | _ => None end.

Definition json_string (doc : JSON) : option string :=
  match doc with JString s => Some s | _ => None end.

Definition digit_of (c : ascii) : option N :=
  let n := N_of_ascii c in
  if (48 <=? n)%N && (n <=? 57)%N then Some (n - 48)%N else None.

Fixpoint parse_digits (acc : N) (s : string) : option N :=
  match s with
  | EmptyString => Some acc
  | String c s' =>
      match digit_of c with
      | Some d => parse_digits (10 * acc + d)%N s'
      | None => None
      end
  end.

(** A non-negative decimal number of seconds. *)
Definition parse_seconds (s : string) : option N :=
  match s with
  | EmptyString => None
  | _ => parse_digits 0%N s
  end.

(** Modelled from the spec: the [Retry-After] header read by the rate-limit
    policy of the missing [restsession.py] (section 4.2: "read a Retry-After
    header (seconds)"). *)
Definition retry_after (h : Headers) : option N :=
  header_get "Retry-After" h ≫= parse_seconds.

Fixpoint until_gt (s : string) : option (string * string) :=
  match s with
  | EmptyString => None
  | String c s' =>
      if Ascii.eqb c ">"%char then Some (EmptyString, s')
      else match until_gt s' with
           | Some (u, tl) => Some (String c u, tl)
           | None => None
           end
  end.

Definition dquote : string := String "034"%char EmptyString.
Definition rel_next : string := "; rel=" ++ dquote ++ "next" ++ dquote.

Definition parse_link_next (v : string) : option string :=
  match v with
  | String c rest =>
      if Ascii.eqb c "<"%char then
        match until_gt rest with
        | Some (u, tl) => if String.eqb tl rel_next then Some u else None
        | None => None
        end
      else None
  | EmptyString => None
  end.

(** Modelled from the spec: the [next] cursor of a page in the missing
    [restsession.py] (section 4.4: a response header whose value encodes
    the URL followed by the relation [next]; a malformed or missing relation
    means no further pages). *)
Definition next_link (h : Headers) : option string :=
  header_get "Link" h ≫= parse_link_next.

(** *** RateLimitPolicy *)

Record RateLimitPolicy : Type := mkPolicy {
  defaultWait : N;
  maxAttempts : nat
}.

(** The example values of section 4.2: 15 seconds, 10 attempts. *)
Definition DEFAULT_POLICY : RateLimitPolicy :=
  {| defaultWait := 15; maxAttempts := 10 |}.

Record RetryDecision : Type := mkDecision {
  retry : bool;
  waitSeconds : N
}.

(** Modelled from the spec: [RateLimitPolicy.shouldRetry] of the missing
    [restsession.py] (section 4.2).  On status 429 the wait is the
    [Retry-After] value when the header carries one, and otherwise an
    exponential backoff seeded at [defaultWait]; an [attemptCount] (the
    number of attempts made so far, the failed one included) that exceeds
    [maxAttempts] yields [retry = false].  Pure logic, no I/O. *)
Definition shouldRetry (p : RateLimitPolicy) (statusCode : Z)
    (responseHeaders : Headers) (attemptCount : nat) : RetryDecision :=
  if Z.eqb statusCode 429 then
    {| retry := negb (Nat.ltb (maxAttempts p) attemptCount);
       waitSeconds :=
         match retry_after responseHeaders with
         | Some secs => secs
         | None => (defaultWait p * 2 ^ N.of_nat (Nat.pred attemptCount))%N
         end |}
  else {| retry := false; waitSeconds := 0 |}.

(** *** RestSession *)

(** Modelled from the spec: the state of a [RestSession] (section 3: base
    URL, timeout in seconds, credentials). *)
Record RestSessionRec : Type := mkSession {
  rs_access_token : string;
  rs_base_url : string;
  rs_timeout : Z
}.

(** Modelled from the spec: the constructor of [RestSession] in the missing
    [restsession.py] (section 4.3: "Constructor validates: access token
    non-empty, base_url non-empty, timeout a positive integer; invalid input
    is a fatal construction-time error (ciscosparkapiException-class
    error)"). *)
Definition RestSession__init__ (access_token base_url timeout : PyVal)
  : M RestSessionRec :=
  match access_token, base_url, int_value timeout with
  | PyStr tok, PyStr url, Some secs =>
      if negb (nonempty tok)
      then raise (ciscosparkapiException "access token must not be empty")
      else if negb (nonempty url)
      then raise (ciscosparkapiException "base_url must not be empty")
      else if Z.leb secs 0
      then raise (ciscosparkapiException "timeout must be a positive integer")
      else mret {| rs_access_token := tok; rs_base_url := url;
                   rs_timeout := secs |}
  | _, _, _ => raise (ciscosparkapiException "malformed constructor arguments")
  end.

#[global] Instance SpecRestSession : RestSessionAPI := {|
  Session := RestSessionRec;
  RestSession := RestSession__init__;
  session_access_token := fun s => PyStr (rs_access_token s);
  session_base_url := fun s => PyStr (rs_base_url s);
  session_timeout := fun s => PyInt (rs_timeout s)
|}.

Section Session.
Variable policy : RateLimitPolicy.

(** Modelled from the spec: the headers injected on every call by the
    missing [restsession.py] (section 4.3). *)
Definition session_headers (s : RestSessionRec) : Headers :=
  [("Authorization", "Bearer " ++ rs_access_token s);
   ("Content-Type", "application/json")].

(** Modelled from the spec: [base_url] is prepended to the endpoint suffix
    (section 4.3). *)
Definition abs_url (s : RestSessionRec) (endpointSuffix : string) : string :=
  rs_base_url s ++ endpointSuffix.

Definition mk_request (s : RestSessionRec) (m : Method) (url : string)
    (params : list (string * string)) (body : option JSON) : Request :=
  {| req_method := m; req_url := url; req_headers := session_headers s;
     req_params := params; req_json := body; req_timeout := rs_timeout s |}.

(** Modelled from the spec: the retry loop of the missing [restsession.py]
    (section 4.3: "invoke HttpTransport; if status is 429, consult
    RateLimitPolicy and sleep/retry"; section 7: a 429 that persists past
    the policy's maximum attempts is a [RateLimitExceededError]).
    [budget] bounds the recursion; the policy stops the loop first, see
    [retry_loop_budget]. *)
Fixpoint retry_loop (budget : nat) (attemptCount : nat) (r : Request)
  : M Response :=
  match budget with
  | O => raise RateLimitExceededError
  | S budget' =>
      resp ← send r;
      if Z.eqb (status_code resp) 429 then
        let d := shouldRetry policy (status_code resp) (resp_headers resp)
                   attemptCount in
        if retry d
        then sleep (waitSeconds d);; retry_loop budget' (S attemptCount) r
        else raise RateLimitExceededError
      else mret resp
  end.

(** Modelled from the spec: the first attempt has count 1, and the policy
    ends the loop within [maxAttempts + 1] transmissions. *)
Definition send_with_retry (r : Request) : M Response :=
  retry_loop (S (maxAttempts policy)) 1 r.

(** Modelled from the spec: the success statuses (section 6). *)
Definition is_2xx (status : Z) : bool :=
  Z.leb 200 status && Z.ltb status 300.

(** Modelled from the spec: the [SparkApiError] of section 4.3, with the
    message and tracking id of the decoded error body, or the raw body
    text when the body is not JSON. *)
Definition api_error (resp : Response) : Exn :=
  match resp_body resp with
  | BodyJson doc =>
      SparkApiError (status_code resp)
        (json_field "trackingId" doc ≫= json_string)
        (default "" (json_field "message" doc ≫= json_string))
  | BodyRaw text => SparkApiError (status_code resp) None text
  end.

(** Modelled from the spec: the generic request of the missing
    [restsession.py] (section 4.3): retry loop, then any non-2xx status
    is a [SparkApiError]. *)
Definition request (s : RestSessionRec) (m : Method) (url : string)
    (params : list (string * string)) (body : option JSON) : M Response :=
  resp ← send_with_retry (mk_request s m url params body);
  if is_2xx (status_code resp) then mret resp else raise (api_error resp).

(** Modelled from the spec: decoding of a successful response (section
    4.3: "Successful non-204 responses must have a JSON-parseable body; a
    body that fails to parse as JSON is a fatal MalformedResponseError").
    A 204 has no content. *)
Definition decode (resp : Response) : M JSON :=
  if Z.eqb (status_code resp) 204 then mret JNull
  else match resp_body resp with
       | BodyJson doc => mret doc
       | BodyRaw _ => raise MalformedResponseError
       end.

(** Modelled from the spec: a verb that returns the decoded body. *)
Definition request_json (s : RestSessionRec) (m : Method)
    (endpointSuffix : string) (params : list (string * string))
    (body : option JSON) : M JSON :=
  resp ← request s m (abs_url s endpointSuffix) params body;
  decode resp.

(** Modelled from the spec: [get] (section 4.3). *)
Definition get (s : RestSessionRec) (endpointSuffix : string)
    (params : list (string * string)) : M JSON :=
  request_json s GET endpointSuffix params None.

(** Modelled from the spec: [postJson] (section 4.3). *)
Definition postJson (s : RestSessionRec) (endpointSuffix : string)
    (body : JSON) : M JSON :=
  request_json s POST endpointSuffix [] (Some body).

(** Modelled from the spec: [putJson] (section 4.3). *)
Definition putJson (s : RestSessionRec) (endpointSuffix : string)
    (body : JSON) : M JSON :=
  request_json s PUT endpointSuffix [] (Some body).

(** Modelled from the spec: [delete] (section 4.3) expects a 204; any
    other status is an error. *)
Definition delete (s : RestSessionRec) (endpointSuffix : string) : M unit :=
  resp ← request s DELETE (abs_url s endpointSuffix) [] None;
  if Z.eqb (status_code resp) 204 then mret tt else raise (api_error resp).

(** *** Pagination *)

(** Modelled from the spec: the [items] array of a page (section 3). *)
Definition page_items (doc : JSON) : option (list JSON) :=
  match json_field "items" doc with
  | Some (JArray elems) => Some elems
  | _ => None
  end.

(** Modelled from the spec: the state of a lazy result sequence (section
    4.4): what is left of the current page, and the request that fetches
    the following page, if any. *)
Record Cursor : Type := mkCursor {
  buffer : list JSON;
  pending : option (string * list (string * string))
}.

Definition exhausted : Cursor := {| buffer := []; pending := None |}.

Inductive Pulled : Type :=
| Yield (item : JSON)
| StopIteration.

(** Modelled from the spec: [requestList] of the missing [restsession.py]
    (section 4.4, item 1): creating the sequence issues no request. *)
Definition requestList (s : RestSessionRec) (endpointSuffix : string)
    (params : list (string * string)) : Cursor :=
  {| buffer := []; pending := Some (abs_url s endpointSuffix, params) |}.

(** Modelled from the spec: one page fetch (section 4.4, items 3 and 5,
    and the edge cases: an unparsable body is the [MalformedResponseError]
    of section 4.3). *)
Definition fetch_page (s : RestSessionRec) (url : string)
    (params : list (string * string)) : M (list JSON * option string) :=
  resp ← request s GET url params None;
  doc ← decode resp;
  match page_items doc with
  | Some items => mret (items, next_link (resp_headers resp))
  | None => raise MalformedResponseError
  end.

(** Modelled from the spec: one step of the lazy sequence (section 4.4,
    items 2 to 4): yield from the current page; when it is used up follow
    the [next] link; stop when there is none, or when the fetched page has
    zero items. *)
Definition pull (s : RestSessionRec) (c : Cursor) : M (Pulled * Cursor) :=
  match buffer c with
  | item :: rest =>
      mret (Yield item, {| buffer := rest; pending := pending c |})
  | [] =>
      match pending c with
      | None => mret (StopIteration, exhausted)
      | Some (url, params) =>
          page ← fetch_page s url params;
          match page with
          | ([], _) => mret (StopIteration, exhausted)
          | (item :: rest, nxt) =>
              mret (Yield item,
                    {| buffer := rest;
                       pending := (fun u => (u, [])) <$> nxt |})
          end
      end
  end.

(** How a full consumption of the sequence ends. *)
Inductive Ending : Type :=
| Stopped
| Raised (e : Exn)
| StillRunning.

(** The consumer's [for item in sequence] loop, at most [fuel] pulls. *)
Fixpoint drain (fuel : nat) (s : RestSessionRec) (c : Cursor) (w : World)
  : list JSON * Ending * World :=
  match fuel with
  | O => ([], StillRunning, w)
  | S fuel' =>
      match pull s c w with
      | (Raise e, w') => ([], Raised e, w')
      | (Ok (StopIteration, _), w') => ([], Stopped, w')
      | (Ok (Yield item, c'), w') =>
          let '(items, e, w'') := drain fuel' s c' w' in
          (item :: items, e, w'')
      end
  end.

End Session.

(** ** Vocabulary of the statements *)

(** What the server of world [w] answers to [r] next. *)
Definition answer (w : World) (r : Request) : TransportResult :=
  server w (requests_of (trace w)) r.

(** The page a transport result carries: status 200, a JSON body with an
    [items] array, and the [next] link of the headers. *)
Definition page_of (tr : TransportResult)
  : option (list JSON * option string) :=
  match tr with
  | Responded resp =>
      if Z.eqb (status_code resp) 200 then
        match resp_body resp with
        | BodyJson doc =>
            (fun items => (items, next_link (resp_headers resp)))
              <$> page_items doc
        | BodyRaw _ => None
        end
      else None
  | TransportFailure _ => None
  end.

(** A success status other than 204 with a body that is not JSON. *)
Definition unparsable (tr : TransportResult) : bool :=
  match tr with
  | Responded resp =>
      is_2xx (status_code resp) && negb (Z.eqb (status_code resp) 204)
      && match resp_body resp with BodyRaw _ => true | BodyJson _ => false end
  | TransportFailure _ => false
  end.

(** A 429 answer. *)
Definition rate_limited (tr : TransportResult) : bool :=
  match tr with
  | Responded resp => Z.eqb (status_code resp) 429
  | TransportFailure _ => false
  end.

Definition follow (lnk : option string)
  : option (string * list (string * string)) :=
  (fun u => (u, [])) <$> lnk.

(** [serves srv s hist nxt pages fin]: starting from history [hist], the
    server answers the page requests of session [s] with [pages], in this
    order, each page carrying the link its successor is fetched from; [fin]
    describes the situation after the last of them. *)
Fixpoint serves (srv : list Request -> Request -> TransportResult)
    (s : RestSessionRec) (hist : list Request)
    (nxt : option (string * list (string * string)))
    (pages : list (list JSON * option string))
    (fin : list Request -> option (string * list (string * string)) -> Prop)
  : Prop :=
  match pages with
  | [] => fin hist nxt
  | (items, lnk) :: rest =>
      match nxt with
      | None => False
      | Some (url, params) =>
          let r := mk_request s GET url params None in
          page_of (srv hist r) = Some (items, lnk)
          /\ serves srv s (hist ++ [r]) (follow lnk) rest fin
      end
  end.


Definition then_unparsable (srv : list Request -> Request -> TransportResult)
    (s : RestSessionRec) (hist : list Request)
    (nxt : option (string * list (string * string))) : Prop :=
  match nxt with
  | None => False
  | Some (url, params) =>
      unparsable (srv hist (mk_request s GET url params None)) = true
  end.

Definition prepend (xs : list JSON) (r : list JSON * Ending * World)
  : list JSON * Ending * World :=
  let '(ys, e, w) := r in ((xs ++ ys)%list, e, w).

(** A [base_url] and a [timeout] the session constructor accepts. *)
Definition valid_base_url (v : PyVal) : bool :=
  match v with PyStr u => nonempty u | _ => false end.

Definition valid_timeout (v : PyVal) : bool :=
  match int_value v with Some secs => Z.ltb 0 secs | None => false end.

(** ** Sample worlds *)

Definition offline (hist : list Request) (r : Request) : TransportResult :=
  TransportFailure "offline".

Definition bare_world : World :=
  {| environ := ∅; server := offline; trace := [] |}.

Definition env_world : World :=
  {| environ := {[ "SPARK_ACCESS_TOKEN" := "from-env" ]};
     server := offline; trace := [] |}.

Definition small_policy : RateLimitPolicy :=
  {| defaultWait := 15; maxAttempts := 2 |}.

Definition sample_session : RestSessionRec :=
  {| rs_access_token := "secret"; rs_base_url := DEFAULT_BASE_URL;
     rs_timeout := 60 |}.

Definition throttled : Response :=
  {| status_code := 429; resp_headers := [("Retry-After", "3")];
     resp_body := BodyRaw "" |}.

Definition throttled_world : World :=
  {| environ := ∅; server := fun _ _ => Responded throttled; trace := [] |}.

Definition page_body (items : list JSON) : Body :=
  BodyJson (JObject [("items", JArray items)]).

Definition link_to (url : string) : Headers :=
  [("Link", "<" ++ url ++ ">" ++ rel_next)].

Definition rooms_url : string := "https://api.ciscospark.com/v1/rooms".
Definition rooms_url_2 : string :=
  "https://api.ciscospark.com/v1/rooms?cursor=2".



(** The same first page, followed by a page that is not JSON. *)
Definition broken_server (hist : list Request) (r : Request) : TransportResult :=
  if String.eqb (req_url r) rooms_url then
    Responded {| status_code := 200; resp_headers := link_to rooms_url_2;
                 resp_body := page_body [JString "a"; JString "b"] |}
  else Responded {| status_code := 200; resp_headers := [];
                    resp_body := BodyRaw "<html>" |}.

(** A collection without members. *)
Definition empty_server (hist : list Request) (r : Request) : TransportResult :=
  Responded {| status_code := 200; resp_headers := [];
               resp_body := page_body [] |}.

Definition world_of (srv : list Request -> Request -> TransportResult) : World :=
  {| environ := ∅; server := srv; trace := [] |}.

(** The client built around [sample_session] with the default timeout. *)
Definition sample_client : @CiscoSparkAPI SpecRestSession :=
  wrap sample_session (PyInt DEFAULT_TIMEOUT).


(** * Properties of the constructor *)

Lemma requests_of_app (t1 t2 : list Event) :
  requests_of (t1 ++ t2) = (requests_of t1 ++ requests_of t2)%list.
Proof.
  induction t1 as [|ev t1 IH]; [reflexivity|].
  destruct ev; simpl; rewrite IH; reflexivity.
Qed.

Lemma env_reads_of_app (t1 t2 : list Event) :
  env_reads_of (t1 ++ t2) = (env_reads_of t1 ++ env_reads_of t2)%list.
Proof.
  induction t1 as [|ev t1 IH]; [reflexivity|].
  destruct ev; simpl; rewrite IH; reflexivity.
Qed.

Lemma truthy_str (s : string) : truthy (PyStr s) = nonempty s.
Proof. reflexivity. Qed.

Lemma nonempty_false (s : string) : nonempty s = false <-> s = "".
Proof. destruct s; simpl; split; congruence. Qed.

Section ClientFacts.
Context `{RS : RestSessionAPI}.

Lemma init_ill_typed (a : Args) (w : World) :
  well_typed a = false ->
  CiscoSparkAPI__init__ a w = (Raise AssertionError, w).
Proof.
  unfold well_typed, CiscoSparkAPI__init__. cbv zeta. intros H.
  destruct (is_None (bound_access_token a)
            || isinstance_string_types (bound_access_token a));
    [|reflexivity].
  destruct (isinstance_string_types (bound_base_url a)); [|reflexivity].
  destruct (isinstance_int (bound_timeout a)); [discriminate H|].
  reflexivity.
Qed.

Lemma init_well_typed (a : Args) (w : World) :
  well_typed a = true ->
  CiscoSparkAPI__init__ a w =
    let spark_access_token :=
      match environ w !! "SPARK_ACCESS_TOKEN" with
      | Some v => PyStr v
      | None => PyNone
      end in
    let tok := if truthy (bound_access_token a)
               then bound_access_token a else spark_access_token in
    if negb (truthy tok)
    then (Raise (ciscosparkapiException error_message), after_env_read w)
    else (session ← RestSession tok (bound_base_url a) (bound_timeout a);
          mret (wrap session (bound_timeout a))) (after_env_read w).
Proof.
  unfold well_typed, CiscoSparkAPI__init__. intros H.
  apply andb_prop in H as [H H3]. apply andb_prop in H as [H1 H2].
  cbv zeta. rewrite H1, H2, H3.
  unfold mbind, M_mbind, M_bind, assert_, mret, M_mret, M_ret. simpl.
  destruct (negb _); reflexivity.
Qed.

(** C1: with [access_token] [None] or empty and no [SPARK_ACCESS_TOKEN] in
    the environment, construction fails at construction time, before the
    session constructor is entered and before any HTTP request is issued.
    When [base_url] is a string and [timeout] an [int] the exception is
    [ciscosparkapiException] with the documented message; when one of them
    has the wrong type the assertions of lines 105-106 fail first and the
    exception is [AssertionError]. *)
Theorem init_without_token_raises (a : Args) (w : World) :
  bound_access_token a = PyNone \/ bound_access_token a = PyStr "" ->
  environ w !! "SPARK_ACCESS_TOKEN" = None ->
  (isinstance_string_types (bound_base_url a) = true ->
   isinstance_int (bound_timeout a) = true ->
   CiscoSparkAPI__init__ a w =
     (Raise (ciscosparkapiException error_message), after_env_read w))
  /\ (isinstance_string_types (bound_base_url a) = false
      \/ isinstance_int (bound_timeout a) = false ->
      CiscoSparkAPI__init__ a w = (Raise AssertionError, w))
  /\ (exists e w', CiscoSparkAPI__init__ a w = (Raise e, w')
                   /\ server w' = server w
                   /\ requests_of (trace w') = requests_of (trace w)).
Proof.
  intros Htok Henv.
  assert (Hgo : well_typed a = true ->
            CiscoSparkAPI__init__ a w =
              (Raise (ciscosparkapiException error_message),
               after_env_read w)).
  { intros Hwt. rewrite (init_well_typed a w Hwt). simpl.
    rewrite Henv. destruct Htok as [-> | ->]; reflexivity. }
  split; [|split].
  - intros Hb Ht. apply Hgo. unfold well_typed.
    rewrite Hb, Ht. destruct Htok as [-> | ->]; reflexivity.
  - intros Hbad. apply init_ill_typed. unfold well_typed.
    destruct Hbad as [-> | ->].
    + apply andb_false_iff. left. apply andb_false_r.
    + apply andb_false_r.
  - destruct (well_typed a) eqn:Hwt.
    + exists (ciscosparkapiException error_message), (after_env_read w).
      split; [auto|]. split; [reflexivity|].
      unfold after_env_read, log; simpl.
      rewrite requests_of_app. simpl. apply app_nil_r.
    + exists AssertionError, w. split; [|split; reflexivity].
      apply init_ill_typed, Hwt.
Qed.

(** C3: credential resolution. For arguments that pass the type
    assertions, the environment is read exactly once, and then: a
    non-empty [access_token] argument is the token the session is opened
    with; otherwise a non-empty [SPARK_ACCESS_TOKEN] is; otherwise
    construction raises [ciscosparkapiException]. The three properties
    read the session and never the environment. *)
Theorem token_resolution_order (a : Args) (w : World) :
  well_typed a = true ->
  (forall tok, bound_access_token a = PyStr tok -> tok <> "" ->
     CiscoSparkAPI__init__ a w = open_session tok a (after_env_read w))
  /\ (forall v,
        bound_access_token a = PyNone \/ bound_access_token a = PyStr "" ->
        environ w !! "SPARK_ACCESS_TOKEN" = Some v -> v <> "" ->
        CiscoSparkAPI__init__ a w = open_session v a (after_env_read w))
  /\ (bound_access_token a = PyNone \/ bound_access_token a = PyStr "" ->
      environ w !! "SPARK_ACCESS_TOKEN" = None
      \/ environ w !! "SPARK_ACCESS_TOKEN" = Some "" ->
      CiscoSparkAPI__init__ a w =
        (Raise (ciscosparkapiException error_message), after_env_read w))
  /\ env_reads_of (trace (after_env_read w)) =
       (env_reads_of (trace w) ++ ["SPARK_ACCESS_TOKEN"])%list
  /\ (forall self, access_token self = session_access_token (_session self)).
Proof.
  intros Hwt. rewrite (init_well_typed a w Hwt). cbv zeta.
  repeat split.
  - intros tok -> Hne. rewrite truthy_str.
    destruct tok; [congruence|]. reflexivity.
  - intros v Htok -> Hne.
    assert (truthy (bound_access_token a) = false) as ->
      by (destruct Htok as [-> | ->]; reflexivity).
    rewrite truthy_str. destruct v; [congruence|]. reflexivity.
  - intros Htok Henv.
    assert (truthy (bound_access_token a) = false) as ->
      by (destruct Htok as [-> | ->]; reflexivity).
    destruct Henv as [-> | ->]; reflexivity.
  - unfold after_env_read, log; simpl. apply env_reads_of_app.
Qed.

(** C9: an omitted [base_url] is bound to
    ['https://api.ciscospark.com/v1/'], which ends with a slash so that an
    endpoint suffix appended to it gives the endpoint's URL, and an omitted
    [timeout] is bound to 60; these are the values the session is
    created with. *)
Theorem constructor_defaults :
  (forall tok tmo,
     bound_base_url (mkArgs tok None tmo)
     = PyStr "https://api.ciscospark.com/v1/")
  /\ (exists root, DEFAULT_BASE_URL = root ++ "/")
  /\ DEFAULT_BASE_URL ++ "rooms" = "https://api.ciscospark.com/v1/rooms"
  /\ (forall tok url, bound_timeout (mkArgs tok url None) = PyInt 60)
  /\ (forall tok w, tok <> "" ->
        CiscoSparkAPI__init__ (mkArgs (Some (PyStr tok)) None None) w =
          (session ← RestSession (PyStr tok)
                        (PyStr "https://api.ciscospark.com/v1/") (PyInt 60);
           mret (wrap session (PyInt 60))) (after_env_read w)).
Proof.
  split; [reflexivity|].
  split; [exists "https://api.ciscospark.com/v1"; reflexivity|].
  split; [reflexivity|]. split; [reflexivity|].
  intros tok w Hne.
  rewrite init_well_typed by reflexivity. cbv zeta.
  unfold bound_access_token; simpl.
  destruct tok; [congruence|]. reflexivity.
Qed.

(** C10: an argument of the wrong type (an [access_token] that is neither
    [None] nor a string, a [base_url] that is not a string, a [timeout]
    that is not an [int]) makes construction raise [AssertionError], which
    is not a [ciscosparkapiException]; the world is left as it was, so the
    environment has not been read, whatever [SPARK_ACCESS_TOKEN] holds. *)
Theorem wrong_type_raises_AssertionError (a : Args) (w : World) :
  (is_None (bound_access_token a)
   || isinstance_string_types (bound_access_token a)) = false
  \/ isinstance_string_types (bound_base_url a) = false
  \/ isinstance_int (bound_timeout a) = false ->
  CiscoSparkAPI__init__ a w = (Raise AssertionError, w)
  /\ is_ConfigurationError AssertionError = false.
Proof.
  intros H. split; [|reflexivity].
  apply init_ill_typed. unfold well_typed.
  destruct H as [-> | [-> | ->]]; [reflexivity| |].
  - apply andb_false_iff. left. apply andb_false_r.
  - apply andb_false_r.
Qed.

End ClientFacts.

(** * Properties of the REST session and of pagination *)

Section SessionFacts.
Variable policy : RateLimitPolicy.

Lemma send_responded (r : Request) (w : World) (resp : Response) :
  answer w r = Responded resp ->
  send r w = (Ok resp, log (EvRequest r) w).
Proof. unfold answer, send. intros ->. reflexivity. Qed.

Lemma requests_of_log_request (r : Request) (w : World) :
  requests_of (trace (log (EvRequest r) w))
  = (requests_of (trace w) ++ [r])%list.
Proof. unfold log; simpl. apply requests_of_app. Qed.

Lemma requests_of_log_sleep (n : N) (w : World) :
  requests_of (trace (log (EvSleep n) w)) = requests_of (trace w).
Proof. unfold log; simpl. rewrite requests_of_app. apply app_nil_r. Qed.

(** One turn of the retry loop on a 429 the policy lets through. *)
Lemma retry_loop_429 (budget attempt : nat) (r : Request) (w : World)
    (resp : Response) :
  answer w r = Responded resp ->
  status_code resp = 429 ->
  (attempt <= maxAttempts policy)%nat ->
  retry_loop policy (S budget) attempt r w =
    retry_loop policy budget (S attempt) r
      (log (EvSleep (waitSeconds
              (shouldRetry policy 429 (resp_headers resp) attempt)))
         (log (EvRequest r) w)).
Proof.
  intros Hans Hst Hle. simpl.
  unfold mbind, M_mbind, M_bind. rewrite (send_responded _ _ _ Hans).
  rewrite Hst. simpl.
  replace (maxAttempts policy <? attempt)%nat with false
    by (symmetry; apply Nat.ltb_ge; exact Hle).
  reflexivity.
Qed.

(** The last turn: a 429 after [maxAttempts] has been exceeded. *)
Lemma retry_loop_429_last (budget attempt : nat) (r : Request) (w : World)
    (resp : Response) :
  answer w r = Responded resp ->
  status_code resp = 429 ->
  (maxAttempts policy < attempt)%nat ->
  retry_loop policy (S budget) attempt r w =
    (Raise RateLimitExceededError, log (EvRequest r) w).
Proof.
  intros Hans Hst Hlt. simpl.
  unfold mbind, M_mbind, M_bind. rewrite (send_responded _ _ _ Hans).
  rewrite Hst. simpl.
  replace (maxAttempts policy <? attempt)%nat with true
    by (symmetry; apply Nat.ltb_lt; exact Hlt).
  reflexivity.
Qed.

(** Any answer but a 429 ends the loop at once. *)
Lemma retry_loop_other (budget attempt : nat) (r : Request) (w : World)
    (resp : Response) :
  answer w r = Responded resp ->
  status_code resp <> 429 ->
  retry_loop policy (S budget) attempt r w
  = (Ok resp, log (EvRequest r) w).
Proof.
  intros Hans Hst. simpl.
  unfold mbind, M_mbind, M_bind. rewrite (send_responded _ _ _ Hans).
  destruct (Z.eqb_spec (status_code resp) 429); [contradiction|].
  reflexivity.
Qed.

(** The budget only bounds the recursion: once it covers the attempts the
    policy allows, a larger one changes nothing, so the loop of
    [send_with_retry] always ends by the policy's decision. *)
Lemma retry_loop_budget (budget extra : nat) :
  forall (attempt : nat) (r : Request) (w : World),
    (maxAttempts policy < budget + attempt)%nat ->
    retry_loop policy (S budget + extra) attempt r w
    = retry_loop policy (S budget) attempt r w.
Proof.
  induction budget as [|budget IH]; intros attempt r w Hlt;
    cbn [Nat.add retry_loop]; unfold mbind, M_mbind, M_bind;
    destruct (send r w) as [[resp|e] w1]; try reflexivity;
    destruct (Z.eqb (status_code resp) 429); try reflexivity;
    unfold shouldRetry; cbn [retry waitSeconds];
    destruct (Z.eqb (status_code resp) 429); try reflexivity;
    cbn [retry].
  - replace (maxAttempts policy <? attempt)%nat with true
      by (symmetry; apply Nat.ltb_lt; lia).
    reflexivity.
  - destruct (negb (maxAttempts policy <? attempt)%nat); [|reflexivity].
    unfold sleep. apply (IH (S attempt)). lia.
Qed.

Lemma rate_limited_inv (tr : TransportResult) :
  rate_limited tr = true ->
  exists resp, tr = Responded resp /\ status_code resp = 429.
Proof.
  destruct tr as [resp|]; simpl; [|discriminate].
  intros H. exists resp. split; [reflexivity|]. apply Z.eqb_eq, H.
Qed.

Lemma retry_loop_exhausts (r : Request) (n attempt : nat) (w : World) :
  (attempt + n = S (maxAttempts policy))%nat ->
  (forall j, (j <= n)%nat ->
     rate_limited
       (server w (requests_of (trace w) ++ replicate j r)%list r) = true) ->
  exists w',
    retry_loop policy (S n) attempt r w = (Raise RateLimitExceededError, w')
    /\ server w' = server w
    /\ requests_of (trace w')
       = (requests_of (trace w) ++ replicate (S n) r)%list
    /\ length (sleeps_of (trace w'))
       = (length (sleeps_of (trace w)) + n)%nat.
Proof.
  revert attempt w.
  induction n as [|n IH]; intros attempt w Hsum Hsrv.
  - destruct (rate_limited_inv _ (Hsrv 0%nat (le_n 0%nat))) as (resp & Hans & Hst).
    simpl in Hans. rewrite app_nil_r in Hans.
    exists (log (EvRequest r) w). split.
    + apply (retry_loop_429_last 0%nat attempt r w resp Hans Hst). lia.
    + split; [reflexivity|]. split; [apply requests_of_log_request|].
      unfold log; simpl. clear. induction (trace w) as [|[] t IHt]; simpl; lia.
  - destruct (rate_limited_inv _ (Hsrv 0%nat (Nat.le_0_l _)))
      as (resp & Hans & Hst).
    simpl in Hans. rewrite app_nil_r in Hans.
    rewrite (retry_loop_429 (S n) attempt r w resp Hans Hst) by lia.
    set (w1 := log (EvSleep _) (log (EvRequest r) w)).
    assert (Hreq1 : requests_of (trace w1)
                    = (requests_of (trace w) ++ [r])%list).
    { unfold w1. rewrite requests_of_log_sleep.
      apply requests_of_log_request. }
    destruct (IH (S attempt) w1) as (w' & Hrun & Hsv & Hreq & Hsl).
    + lia.
    + intros j Hj. rewrite Hreq1, <- app_assoc. simpl.
      apply (Hsrv (S j)). lia.
    + exists w'. split; [exact Hrun|]. split; [exact Hsv|].
      split.
      * rewrite Hreq, Hreq1, <- app_assoc. reflexivity.
      * rewrite Hsl. unfold w1, log; simpl. clear.
        induction (trace w) as [|[] t IHt]; simpl; lia.
Qed.

Lemma request_passes (s : RestSessionRec) (m : Method) (url : string)
    (params : list (string * string)) (body : option JSON) (w : World)
    (resp : Response) :
  answer w (mk_request s m url params body) = Responded resp ->
  is_2xx (status_code resp) = true ->
  request policy s m url params body w
  = (Ok resp, log (EvRequest (mk_request s m url params body)) w).
Proof.
  intros Hans H2xx. unfold request, send_with_retry.
  unfold mbind, M_mbind, M_bind.
  rewrite (retry_loop_other _ _ _ _ resp Hans).
  - rewrite H2xx. reflexivity.
  - intros E. rewrite E in H2xx. discriminate H2xx.
Qed.

Lemma page_of_inv (tr : TransportResult) (items : list JSON)
    (lnk : option string) :
  page_of tr = Some (items, lnk) ->
  exists resp doc,
    tr = Responded resp /\ status_code resp = 200
    /\ resp_body resp = BodyJson doc /\ page_items doc = Some items
    /\ next_link (resp_headers resp) = lnk.
Proof.
  destruct tr as [resp|]; simpl; [|discriminate].
  destruct (Z.eqb_spec (status_code resp) 200) as [Hst|]; [|discriminate].
  destruct (resp_body resp) as [doc|] eqn:Hb; [|discriminate].
  destruct (page_items doc) as [its|] eqn:Hp; simpl; [|discriminate].
  intros [= <- <-]. exists resp, doc. repeat split; assumption.
Qed.

Lemma fetch_page_served (s : RestSessionRec) (url : string)
    (params : list (string * string)) (w : World) (items : list JSON)
    (lnk : option string) :
  page_of (answer w (mk_request s GET url params None)) = Some (items, lnk) ->
  fetch_page policy s url params w
  = (Ok (items, lnk), log (EvRequest (mk_request s GET url params None)) w).
Proof.
  intros H.
  destruct (page_of_inv _ _ _ H) as (resp & doc & Hans & Hst & Hb & Hp & Hl).
  unfold fetch_page, mbind, M_mbind, M_bind.
  rewrite (request_passes _ _ _ _ _ _ resp Hans)
    by (rewrite Hst; reflexivity).
  unfold decode. rewrite Hst, Hb. simpl. rewrite Hp, Hl. reflexivity.
Qed.

Lemma fetch_page_unparsable (s : RestSessionRec) (url : string)
    (params : list (string * string)) (w : World) :
  unparsable (answer w (mk_request s GET url params None)) = true ->
  fetch_page policy s url params w
  = (Raise MalformedResponseError,
     log (EvRequest (mk_request s GET url params None)) w).
Proof.
  intros H. destruct (answer w _) as [resp|] eqn:Hans; [|discriminate H].
  simpl in H. apply andb_prop in H as [H Hraw].
  apply andb_prop in H as [H2xx H204].
  unfold fetch_page, mbind, M_mbind, M_bind.
  rewrite (request_passes _ _ _ _ _ _ resp Hans H2xx).
  unfold decode. apply negb_true_iff in H204. rewrite H204.
  destruct (resp_body resp); [discriminate Hraw|]. reflexivity.
Qed.

Lemma drain_buffer (s : RestSessionRec) (xs : list JSON)
    (nxt : option (string * list (string * string))) (fuel : nat)
    (w : World) :
  drain policy (length xs + fuel) s {| buffer := xs; pending := nxt |} w
  = prepend xs (drain policy fuel s {| buffer := []; pending := nxt |} w).
Proof.
  induction xs as [|x xs IH]; cbn [length Nat.add drain].
  - destruct (drain policy fuel s _ w) as [[ys e] w']. reflexivity.
  - unfold pull, mret, M_mret, M_ret. simpl.
    rewrite IH. destruct (drain policy fuel s _ w) as [[ys e] w'].
    reflexivity.
Qed.

Lemma pull_served (s : RestSessionRec) (url : string)
    (params : list (string * string)) (w : World) (x : JSON)
    (xs : list JSON) (lnk : option string) :
  page_of (answer w (mk_request s GET url params None))
  = Some (x :: xs, lnk) ->
  pull policy s {| buffer := []; pending := Some (url, params) |} w
  = (Ok (Yield x, {| buffer := xs; pending := follow lnk |}),
     log (EvRequest (mk_request s GET url params None)) w).
Proof.
  intros H. unfold pull. simpl. unfold mbind, M_mbind, M_bind.
  rewrite (fetch_page_served _ _ _ _ _ _ H). reflexivity.
Qed.

Lemma prepend_app (xs ys : list JSON) (r : list JSON * Ending * World) :
  prepend xs (prepend ys r) = prepend (xs ++ ys)%list r.
Proof. destruct r as [[zs e] w]. simpl. rewrite app_assoc. reflexivity. Qed.

(** Draining a run of non-empty pages yields their items in order and
    leaves the cursor at the link of the last one. *)
Lemma drain_served (s : RestSessionRec)
    (fin : list Request -> option (string * list (string * string)) -> Prop)
    (pages : list (list JSON * option string)) :
  forall (nxt : option (string * list (string * string))) (w : World),
    Forall (fun p => fst p <> []) pages ->
    serves (server w) s (requests_of (trace w)) nxt pages fin ->
    exists (w' : World) (nxt' : option (string * list (string * string))),
      server w' = server w
      /\ fin (requests_of (trace w')) nxt'
      /\ forall fuel,
           drain policy (length (concat (fst <$> pages)) + fuel) s
             {| buffer := []; pending := nxt |} w
           = prepend (concat (fst <$> pages))
               (drain policy fuel s {| buffer := []; pending := nxt' |} w').
Proof.
  induction pages as [|[items lnk] rest IH]; intros nxt w Hne Hsrv.
  - exists w, nxt. split; [reflexivity|]. split; [exact Hsrv|].
    intros fuel. simpl.
    destruct (drain policy fuel s _ w) as [[ys e] w']. reflexivity.
  - simpl in Hsrv. destruct nxt as [[url params]|]; [|contradiction].
    destruct Hsrv as [Hpage Hrest].
    inversion Hne as [|? ? Hitems Hne']; subst.
    destruct items as [|x xs]; [contradiction Hitems; reflexivity|].
    set (r := mk_request s GET url params None) in *.
    destruct (IH (follow lnk) (log (EvRequest r) w) Hne')
      as (w' & nxt' & Hsv & Hfin & Hrun).
    { rewrite requests_of_log_request. exact Hrest. }
    exists w', nxt'. split; [exact Hsv|]. split; [exact Hfin|].
    intros fuel. cbn [fmap list_fmap concat fst].
    rewrite length_app, <- Nat.add_assoc. cbn [length Nat.add].
    cbn [drain]. rewrite (pull_served s url params w x xs lnk Hpage).
    rewrite drain_buffer, Hrun, prepend_app.
    destruct (drain policy fuel s _ w') as [[ys e] w'']. reflexivity.
Qed.




Lemma pull_empty_page (s : RestSessionRec) (url : string)
    (params : list (string * string)) (w : World) (lnk : option string) :
  page_of (answer w (mk_request s GET url params None)) = Some ([], lnk) ->
  pull policy s {| buffer := []; pending := Some (url, params) |} w
  = (Ok (StopIteration, exhausted),
     log (EvRequest (mk_request s GET url params None)) w).
Proof.
  intros H. unfold pull. simpl. unfold mbind, M_mbind, M_bind.
  rewrite (fetch_page_served _ _ _ _ _ _ H). reflexivity.
Qed.


(** C5: when the server answers 429 to a request and to each of its
    [maxAttempts] repetitions, the request raises [RateLimitExceededError]
    after exactly [maxAttempts + 1] transmissions; nothing is sent after
    that. *)
Theorem rate_limit_exhaustion_raises (s : RestSessionRec) (m : Method)
    (url : string) (params : list (string * string)) (body : option JSON)
    (w : World) :
  (forall j, (j <= maxAttempts policy)%nat ->
     rate_limited
       (server w
          (requests_of (trace w)
           ++ replicate j (mk_request s m url params body))%list
          (mk_request s m url params body)) = true) ->
  exists w',
    request policy s m url params body w = (Raise RateLimitExceededError, w')
    /\ requests_of (trace w')
       = (requests_of (trace w)
          ++ replicate (S (maxAttempts policy))
               (mk_request s m url params body))%list.
Proof.
  intros Hsrv.
  destruct (retry_loop_exhausts (mk_request s m url params body)
              (maxAttempts policy) 1%nat w)
    as (w' & Hrun & _ & Hreq & _); [lia|exact Hsrv|].
  exists w'. split; [|exact Hreq].
  unfold request, send_with_retry, mbind, M_mbind, M_bind.
  rewrite Hrun. reflexivity.
Qed.


(** C7: a success answer other than 204 whose body is not JSON makes the
    request raise [MalformedResponseError]; when it comes after a run of
    good pages, consuming the sequence yields the items of those pages and
    then raises that error. *)
Theorem unparsable_body_is_fatal (s : RestSessionRec) :
  (forall m endpointSuffix params body w,
     unparsable
       (answer w (mk_request s m (abs_url s endpointSuffix) params body))
     = true ->
     request_json policy s m endpointSuffix params body w
     = (Raise MalformedResponseError,
        log (EvRequest
               (mk_request s m (abs_url s endpointSuffix) params body)) w))
  /\ (forall nxt pages w fuel,
        Forall (fun p => fst p <> []) pages ->
        serves (server w) s (requests_of (trace w)) nxt pages
          (then_unparsable (server w) s) ->
        exists w',
          drain policy (length (concat (fst <$> pages)) + S fuel) s
            {| buffer := []; pending := nxt |} w
          = (concat (fst <$> pages), Raised MalformedResponseError, w')).
Proof.
  split.
  - intros m suffix params body w H.
    destruct (answer w _) as [resp|] eqn:Hans; [|discriminate H].
    simpl in H. apply andb_prop in H as [H Hraw].
    apply andb_prop in H as [H2xx H204].
    unfold request_json, mbind, M_mbind, M_bind.
    rewrite (request_passes _ _ _ _ _ _ resp Hans H2xx).
    unfold decode. apply negb_true_iff in H204. rewrite H204.
    destruct (resp_body resp); [discriminate Hraw|]. reflexivity.
  - intros nxt pages w fuel Hne Hsrv.
    destruct (drain_served s (then_unparsable (server w) s) pages nxt w
                Hne Hsrv) as (w' & nxt' & Hsv & Hfin & Hrun).
    unfold then_unparsable in Hfin.
    destruct nxt' as [[url params]|]; [|contradiction].
    eexists. rewrite Hrun. cbn [drain]. unfold pull. simpl.
    unfold mbind, M_mbind, M_bind.
    rewrite fetch_page_unparsable
      by (unfold answer; rewrite Hsv; exact Hfin).
    simpl. rewrite app_nil_r. reflexivity.
Qed.

(** C8: when the sequence has to fetch a page and the page comes back
    with an empty [items] array and no [next] link, the pull reports the
    end of the sequence and raises nothing; consuming the sequence from
    there yields nothing more, and later pulls send no request. *)
Theorem empty_last_page_terminates (s : RestSessionRec) (c : Cursor)
    (url : string) (params : list (string * string)) (w : World) :
  buffer c = [] ->
  pending c = Some (url, params) ->
  page_of (answer w (mk_request s GET url params None)) = Some ([], None) ->
  pull policy s c w
  = (Ok (StopIteration, exhausted),
     log (EvRequest (mk_request s GET url params None)) w)
  /\ (forall fuel,
        drain policy (S fuel) s c w
        = ([], Stopped,
           log (EvRequest (mk_request s GET url params None)) w))
  /\ (forall w2, pull policy s exhausted w2
                 = (Ok (StopIteration, exhausted), w2)).
Proof.
  intros Hb Hp Hpage. destruct c as [buf pend]. simpl in Hb, Hp. subst.
  pose proof (pull_empty_page s url params w None Hpage) as Hpull.
  split; [exact Hpull|]. split.
  - intros fuel. cbn [drain]. rewrite Hpull. reflexivity.
  - intros w2. reflexivity.
Qed.

End SessionFacts.

(** * Construction over the modelled session *)

Lemma RestSession__init___pure (tok url tmo : PyVal) (w : World) :
  snd (RestSession__init__ tok url tmo w) = w.
Proof.
  unfold RestSession__init__.
  destruct tok; try reflexivity. destruct url; try reflexivity.
  destruct (int_value tmo); try reflexivity.
  destruct (negb (nonempty s)); [reflexivity|].
  destruct (negb (nonempty s0)); [reflexivity|].
  destruct (Z.leb z 0); reflexivity.
Qed.

Lemma RestSession__init___rejects (tok url tmo : PyVal) (w : World) :
  valid_base_url url && valid_timeout tmo = false ->
  exists msg,
    RestSession__init__ tok url tmo w = (Raise (ciscosparkapiException msg), w).
Proof.
  unfold RestSession__init__, valid_base_url, valid_timeout. intros H.
  destruct tok; try (eexists; reflexivity).
  destruct url; try (eexists; reflexivity).
  destruct (int_value tmo) as [secs|]; try (eexists; reflexivity).
  destruct (negb (nonempty s)); [eexists; reflexivity|].
  destruct (nonempty s0); simpl in *; [|eexists; reflexivity].
  destruct (Z.ltb_spec 0 secs); [discriminate H|].
  destruct (Z.leb_spec secs 0); [eexists; reflexivity|lia].
Qed.

Lemma RestSession__init___accepts (tok url : string) (tmo : PyVal) (w : World) :
  nonempty tok = true -> nonempty url = true -> valid_timeout tmo = true ->
  exists secs,
    int_value tmo = Some secs /\ 0 < secs
    /\ RestSession__init__ (PyStr tok) (PyStr url) tmo w
       = (Ok {| rs_access_token := tok; rs_base_url := url;
                rs_timeout := secs |}, w).
Proof.
  unfold RestSession__init__, valid_timeout. intros Ht Hu Hv.
  destruct (int_value tmo) as [secs|]; [|discriminate Hv].
  apply Z.ltb_lt in Hv. exists secs. split; [reflexivity|]. split; [exact Hv|].
  rewrite Ht, Hu. simpl.
  destruct (Z.leb_spec secs 0); [lia|reflexivity].
Qed.

(** C2: over the session constructor of section 4.3, a [base_url] that is
    not a non-empty string or a [timeout] that is not a positive integer
    makes construction itself raise, with [AssertionError] or a
    [ciscosparkapiException], before any HTTP request is issued: no client
    object exists on which the error could surface later. *)
Theorem invalid_base_url_or_timeout_is_fatal (a : Args) (w : World) :
  valid_base_url (bound_base_url a) && valid_timeout (bound_timeout a)
  = false ->
  exists e w',
    @CiscoSparkAPI__init__ SpecRestSession a w = (Raise e, w')
    /\ is_ConfigurationError e || is_AssertionError e = true
    /\ requests_of (trace w') = requests_of (trace w).
Proof.
  intros Hbad.
  destruct (well_typed a) eqn:Hwt.
  - rewrite (init_well_typed a w Hwt). cbv zeta.
    assert (Hreq : requests_of (trace (after_env_read w))
                   = requests_of (trace w)).
    { unfold after_env_read, log; simpl.
      rewrite requests_of_app. apply app_nil_r. }
    destruct (negb (truthy _)).
    + exists (ciscosparkapiException error_message), (after_env_read w).
      repeat split. exact Hreq.
    + unfold mbind, M_mbind, M_bind. simpl.
      destruct (RestSession__init___rejects
                  (if truthy (bound_access_token a)
                   then bound_access_token a
                   else match environ w !! "SPARK_ACCESS_TOKEN" with
                        | Some v => PyStr v
                        | None => PyNone
                        end)
                  (bound_base_url a) (bound_timeout a) (after_env_read w) Hbad)
        as [msg Hrej].
      exists (ciscosparkapiException msg), (after_env_read w).
      split; [|split; [reflexivity|exact Hreq]].
      unfold after_env_read, log in *. simpl in *. rewrite Hrej. reflexivity.
  - exists AssertionError, w. split; [|split; reflexivity].
    apply init_ill_typed, Hwt.
Qed.

(** With a token and valid arguments construction does succeed, and the
    properties of the client give back what it was built from. *)
Lemma init_succeeds (tok url : string) (secs : Z) (w : World) :
  tok <> "" -> url <> "" -> 0 < secs ->
  exists self,
    @CiscoSparkAPI__init__ SpecRestSession
      (mkArgs (Some (PyStr tok)) (Some (PyStr url)) (Some (PyInt secs))) w
    = (Ok self, after_env_read w)
    /\ access_token self = PyStr tok
    /\ base_url self = PyStr url
    /\ timeout self = PyInt secs.
Proof.
  intros Ht Hu Hs.
  rewrite init_well_typed by reflexivity. cbv zeta.
  unfold bound_access_token, bound_base_url, bound_timeout. simpl.
  destruct tok as [|c tok]; [congruence|].
  destruct url as [|d url]; [congruence|]. simpl.
  unfold mbind, M_mbind, M_bind, RestSession__init__. simpl.
  destruct (Z.leb_spec secs 0); [lia|].
  eexists. split; [reflexivity|]. repeat split.
Qed.

(** * Further properties of the constructor *)

Section ClientOutcomes.
Context `{RS : RestSessionAPI}.

Lemma well_typed_token (a : Args) :
  well_typed a = true ->
  bound_access_token a = PyNone \/ exists s, bound_access_token a = PyStr s.
Proof.
  unfold well_typed. intros H.
  apply andb_prop in H as [H _]. apply andb_prop in H as [H _].
  destruct (bound_access_token a); try discriminate H.
  - left; reflexivity.
  - right; eexists; reflexivity.
Qed.

Lemma well_typed_base_url_timeout (a : Args) :
  well_typed a = true ->
  isinstance_string_types (bound_base_url a) = true
  /\ isinstance_int (bound_timeout a) = true.
Proof.
  unfold well_typed. intros H.
  apply andb_prop in H as [H H3]. apply andb_prop in H as [_ H2].
  split; assumption.
Qed.

Lemma requests_of_after_env_read (w : World) :
  requests_of (trace (after_env_read w)) = requests_of (trace w).
Proof.
  unfold after_env_read, log; simpl.
  rewrite requests_of_app. apply app_nil_r.
Qed.

Lemma init_opens_session (a : Args) (w : World) (tok : string) :
  well_typed a = true -> resolves_to a w tok -> tok <> "" ->
  CiscoSparkAPI__init__ a w = open_session tok a (after_env_read w).
Proof.
  intros Hwt Hres Hne. rewrite (init_well_typed a w Hwt). cbv zeta.
  destruct tok as [|c tok]; [congruence|].
  destruct Hres as [-> | Hfalsy ->].
  - reflexivity.
  - destruct Hfalsy as [-> | ->]; reflexivity.
Qed.

(** The three ways a run of the constructor can go. *)
Lemma init_case_analysis (a : Args) (w : World) :
  ((well_typed a = false
    /\ CiscoSparkAPI__init__ a w = (Raise AssertionError, w))
   \/ (well_typed a = true
       /\ (bound_access_token a = PyNone \/ bound_access_token a = PyStr "")
       /\ (environ w !! "SPARK_ACCESS_TOKEN" = None
           \/ environ w !! "SPARK_ACCESS_TOKEN" = Some "")
       /\ CiscoSparkAPI__init__ a w
          = (Raise (ciscosparkapiException error_message), after_env_read w))
   \/ (exists tok,
         tok <> "" /\ resolves_to a w tok
         /\ isinstance_string_types (bound_base_url a) = true
         /\ isinstance_int (bound_timeout a) = true
         /\ CiscoSparkAPI__init__ a w
            = open_session tok a (after_env_read w))).
Proof.
  assert (Hcases : well_typed a = true \/ well_typed a = false)
    by (destruct (well_typed a); auto).
  destruct Hcases as [Hwt | Hwt].
  - destruct (well_typed_base_url_timeout a Hwt) as [Hb Ht].
    assert (Hopen : forall tok, tok <> "" -> resolves_to a w tok ->
              exists tok,
                tok <> "" /\ resolves_to a w tok
                /\ isinstance_string_types (bound_base_url a) = true
                /\ isinstance_int (bound_timeout a) = true
                /\ CiscoSparkAPI__init__ a w
                   = open_session tok a (after_env_read w)).
    { intros tok Hne Hres. exists tok. repeat split; try assumption.
      apply init_opens_session; assumption. }
    assert (Hfalsy :
              bound_access_token a = PyNone \/ bound_access_token a = PyStr ""
              -> (well_typed a = true
                  /\ (bound_access_token a = PyNone
                      \/ bound_access_token a = PyStr "")
                  /\ (environ w !! "SPARK_ACCESS_TOKEN" = None
                      \/ environ w !! "SPARK_ACCESS_TOKEN" = Some "")
                  /\ CiscoSparkAPI__init__ a w
                     = (Raise (ciscosparkapiException error_message),
                        after_env_read w))
                 \/ (exists tok,
                       tok <> "" /\ resolves_to a w tok
                       /\ isinstance_string_types (bound_base_url a) = true
                       /\ isinstance_int (bound_timeout a) = true
                       /\ CiscoSparkAPI__init__ a w
                          = open_session tok a (after_env_read w))).
    { intros Hf.
      destruct (environ w !! "SPARK_ACCESS_TOKEN") as [[|c v]|] eqn:Henv.
      - left. repeat split; auto.
        rewrite (init_well_typed a w Hwt). cbv zeta. rewrite Henv.
        destruct Hf as [-> | ->]; reflexivity.
      - right. apply (Hopen (String c v)); [discriminate|].
        apply from_environment; assumption.
      - left. repeat split; auto.
        rewrite (init_well_typed a w Hwt). cbv zeta. rewrite Henv.
        destruct Hf as [-> | ->]; reflexivity. }
    right.
    destruct (well_typed_token a Hwt) as [Hnone | [[|c s] Hstr]].
    + apply Hfalsy. left; exact Hnone.
    + apply Hfalsy. right; exact Hstr.
    + right. apply (Hopen (String c s)); [discriminate|].
      apply from_argument; exact Hstr.
  - left. split; [exact Hwt|]. apply init_ill_typed, Hwt.
Qed.

(** X1: every run of the constructor is of one of three kinds. Either a
    type assertion fails and [AssertionError] is raised with nothing done;
    or the arguments are well typed, neither the argument nor the
    environment gives a non-empty token, and [ciscosparkapiException] is
    raised after the one environment read; or the session constructor is
    entered, after the one environment read, with a non-empty string token,
    a string [base_url] and an [int] timeout.  Up to that point no HTTP
    request has been issued. *)
Theorem constructor_outcomes (a : Args) (w : World) :
  ((well_typed a = false
    /\ CiscoSparkAPI__init__ a w = (Raise AssertionError, w))
   \/ (well_typed a = true
       /\ (bound_access_token a = PyNone \/ bound_access_token a = PyStr "")
       /\ (environ w !! "SPARK_ACCESS_TOKEN" = None
           \/ environ w !! "SPARK_ACCESS_TOKEN" = Some "")
       /\ CiscoSparkAPI__init__ a w
          = (Raise (ciscosparkapiException error_message), after_env_read w))
   \/ (exists tok,
         tok <> "" /\ resolves_to a w tok
         /\ isinstance_string_types (bound_base_url a) = true
         /\ isinstance_int (bound_timeout a) = true
         /\ CiscoSparkAPI__init__ a w
            = open_session tok a (after_env_read w)))
  /\ requests_of (trace (after_env_read w)) = requests_of (trace w).
Proof.
  split; [apply init_case_analysis|apply requests_of_after_env_read].
Qed.

(** X2: an empty string given as [access_token] is treated exactly like an
    omitted one, and like an explicit [None]: whatever the other arguments
    and the world are, the three constructions behave the same. *)
Theorem empty_token_is_no_token (url tmo : option PyVal) (w : World) :
  CiscoSparkAPI__init__ (mkArgs (Some (PyStr "")) url tmo) w
  = CiscoSparkAPI__init__ (mkArgs None url tmo) w
  /\ CiscoSparkAPI__init__ (mkArgs (Some PyNone) url tmo) w
     = CiscoSparkAPI__init__ (mkArgs None url tmo) w.
Proof.
  split; [|reflexivity].
  destruct (well_typed (mkArgs None url tmo)) eqn:Hwt.
  - rewrite (init_well_typed (mkArgs None url tmo) w Hwt).
    rewrite (init_well_typed (mkArgs (Some (PyStr "")) url tmo) w)
      by exact Hwt.
    reflexivity.
  - rewrite (init_ill_typed (mkArgs None url tmo) w Hwt).
    apply init_ill_typed. exact Hwt.
Qed.

(** X3: when construction succeeds, the client is built around the one
    session the session constructor returned for the resolved token: every
    wrapper holds that session, [access_tokens] is made from the session's
    base URL and the [timeout] argument, and the final world is the one the
    session constructor left. *)
Theorem successful_construction_shares_one_session (a : Args) (w w' : World)
    (self : CiscoSparkAPI) :
  CiscoSparkAPI__init__ a w = (Ok self, w') ->
  (exists tok,
     tok <> "" /\ resolves_to a w tok
     /\ RestSession (PyStr tok) (bound_base_url a) (bound_timeout a)
          (after_env_read w) = (Ok (_session self), w'))
  /\ people self = PeopleAPI (_session self)
  /\ rooms self = RoomsAPI (_session self)
  /\ memberships self = MembershipsAPI (_session self)
  /\ messages self = MessagesAPI (_session self)
  /\ teams self = TeamsAPI (_session self)
  /\ team_memberships self = TeamMembershipsAPI (_session self)
  /\ webhooks self = WebhooksAPI (_session self)
  /\ access_tokens self = AccessTokensAPI (base_url self) (bound_timeout a).
Proof.
  intros Hrun.
  destruct (init_case_analysis a w) as [H | [H | H]].
  - destruct H as [_ H]. rewrite H in Hrun. discriminate Hrun.
  - destruct H as (_ & _ & _ & H). rewrite H in Hrun. discriminate Hrun.
  - destruct H as (tok & Hne & Hres & _ & _ & H). rewrite H in Hrun.
    unfold open_session, mbind, M_mbind, M_bind in Hrun.
    destruct (RestSession (PyStr tok) (bound_base_url a) (bound_timeout a)
                (after_env_read w)) as [[session|e] w1] eqn:Hrs;
      [|discriminate Hrun].
    unfold mret, M_mret, M_ret in Hrun.
    injection Hrun as <- <-.
    split; [|repeat split].
    exists tok. repeat split; assumption.
Qed.

(** X4: an exception raised by the session constructor leaves the client
    constructor unchanged: it is neither caught nor replaced, and the world
    is the one the session constructor left. *)
Theorem session_error_propagates (a : Args) (w w' : World) (tok : string)
    (e : Exn) :
  well_typed a = true -> resolves_to a w tok -> tok <> "" ->
  RestSession (PyStr tok) (bound_base_url a) (bound_timeout a)
    (after_env_read w) = (Raise e, w') ->
  CiscoSparkAPI__init__ a w = (Raise e, w').
Proof.
  intros Hwt Hres Hne Hrs.
  rewrite (init_opens_session a w tok Hwt Hres Hne).
  unfold open_session, mbind, M_mbind, M_bind. rewrite Hrs. reflexivity.
Qed.

(** X5: the constructor's own checks look at types only. With a non-empty
    token, every string [base_url], the empty one included, and every
    [int] timeout, zero, negative or a [bool], passes lines 104-115
    and is handed unchanged to the session constructor. *)
Theorem value_checks_are_delegated (tok url : string) (w : World) :
  tok <> "" ->
  (forall secs : Z,
     CiscoSparkAPI__init__
       (mkArgs (Some (PyStr tok)) (Some (PyStr url)) (Some (PyInt secs))) w
     = (session ← RestSession (PyStr tok) (PyStr url) (PyInt secs);
        mret (wrap session (PyInt secs))) (after_env_read w))
  /\ (forall flag : bool,
        CiscoSparkAPI__init__
          (mkArgs (Some (PyStr tok)) (Some (PyStr url)) (Some (PyBool flag))) w
        = (session ← RestSession (PyStr tok) (PyStr url) (PyBool flag);
           mret (wrap session (PyBool flag))) (after_env_read w)).
Proof.
  intros Hne. split; intros v.
  - apply (init_opens_session
             (mkArgs (Some (PyStr tok)) (Some (PyStr url)) (Some (PyInt v)))
             w tok); [reflexivity| |exact Hne].
    apply from_argument. reflexivity.
  - apply (init_opens_session
             (mkArgs (Some (PyStr tok)) (Some (PyStr url)) (Some (PyBool v)))
             w tok); [reflexivity| |exact Hne].
    apply from_argument. reflexivity.
Qed.

End ClientOutcomes.

(** * Runs on the sample worlds *)

Lemma init_without_token_raises_witness :
  @CiscoSparkAPI__init__ SpecRestSession (mkArgs None None None) bare_world
  = (Raise (ciscosparkapiException error_message), after_env_read bare_world)
  /\ @CiscoSparkAPI__init__ SpecRestSession
       (mkArgs (Some (PyStr "")) None (Some (PyStr "60"))) bare_world
     = (Raise AssertionError, bare_world).
Proof.
  split.
  - apply (proj1 (init_without_token_raises (mkArgs None None None)
                    bare_world (or_introl eq_refl) eq_refl));
      reflexivity.
  - apply (proj1 (proj2 (init_without_token_raises
                           (mkArgs (Some (PyStr "")) None (Some (PyStr "60")))
                           bare_world (or_intror eq_refl) eq_refl))).
    right. reflexivity.
Defined.

(** [CiscoSparkAPI(base_url=1)] without a token anywhere: the assertion of
    line 105 fails before line 115 is reached, so the exception is not a
    [ciscosparkapiException]. *)
Lemma init_without_token_counterexample :
  bound_access_token (mkArgs None (Some (PyInt 1)) None) = PyNone
  /\ environ bare_world !! "SPARK_ACCESS_TOKEN" = None
  /\ @CiscoSparkAPI__init__ SpecRestSession
       (mkArgs None (Some (PyInt 1)) None) bare_world
     = (Raise AssertionError, bare_world)
  /\ (forall message w',
        @CiscoSparkAPI__init__ SpecRestSession
          (mkArgs None (Some (PyInt 1)) None) bare_world
        <> (Raise (ciscosparkapiException message), w')).
Proof.
  split; [reflexivity|]. split; [reflexivity|]. split; [reflexivity|].
  intros message w' H. discriminate H.
Qed.

Lemma invalid_base_url_or_timeout_is_fatal_witness :
  (exists e w',
     @CiscoSparkAPI__init__ SpecRestSession
       (mkArgs (Some (PyStr "secret")) (Some (PyStr "")) None) bare_world
     = (Raise e, w')
     /\ is_ConfigurationError e || is_AssertionError e = true
     /\ requests_of (trace w') = requests_of (trace bare_world))
  /\ (exists e w',
        @CiscoSparkAPI__init__ SpecRestSession
          (mkArgs (Some (PyStr "secret")) None (Some (PyInt 0))) bare_world
        = (Raise e, w')
        /\ is_ConfigurationError e || is_AssertionError e = true
        /\ requests_of (trace w') = requests_of (trace bare_world)).
Proof.
  split; apply invalid_base_url_or_timeout_is_fatal; reflexivity.
Defined.

Lemma token_resolution_order_witness :
  @CiscoSparkAPI__init__ SpecRestSession
    (mkArgs (Some (PyStr "explicit")) None None) env_world
  = open_session "explicit" (mkArgs (Some (PyStr "explicit")) None None)
      (after_env_read env_world)
  /\ @CiscoSparkAPI__init__ SpecRestSession (mkArgs None None None) env_world
     = open_session "from-env" (mkArgs None None None)
         (after_env_read env_world)
  /\ @CiscoSparkAPI__init__ SpecRestSession
       (mkArgs (Some (PyStr "")) None None) bare_world
     = (Raise (ciscosparkapiException error_message),
        after_env_read bare_world).
Proof.
  split; [|split].
  - apply (proj1 (token_resolution_order
                    (mkArgs (Some (PyStr "explicit")) None None)
                    env_world eq_refl)).
    + reflexivity.
    + discriminate.
  - apply (proj1 (proj2 (token_resolution_order (mkArgs None None None)
                           env_world eq_refl))).
    + left; reflexivity.
    + reflexivity.
    + discriminate.
  - apply (proj1 (proj2 (proj2 (token_resolution_order
                                  (mkArgs (Some (PyStr "")) None None)
                                  bare_world eq_refl)))).
    + right; reflexivity.
    + left; reflexivity.
Defined.


Lemma rate_limit_exhaustion_raises_witness :
  exists w',
    request small_policy sample_session GET rooms_url [] None throttled_world
    = (Raise RateLimitExceededError, w')
    /\ requests_of (trace w')
       = (requests_of (trace throttled_world)
          ++ replicate 3 (mk_request sample_session GET rooms_url [] None))%list.
Proof.
  apply (rate_limit_exhaustion_raises small_policy).
  intros j _. reflexivity.
Defined.


Lemma unparsable_body_is_fatal_witness :
  get DEFAULT_POLICY sample_session "people" [] (world_of broken_server)
  = (Raise MalformedResponseError,
     log (EvRequest
            (mk_request sample_session GET (abs_url sample_session "people")
               [] None)) (world_of broken_server))
  /\ exists w',
       drain DEFAULT_POLICY
         (length (concat (fst <$> [([JString "a"; JString "b"],
                                    Some rooms_url_2)])) + 1)
         sample_session (requestList sample_session "rooms" [])
         (world_of broken_server)
       = (concat (fst <$> [([JString "a"; JString "b"], Some rooms_url_2)]),
          Raised MalformedResponseError, w').
Proof.
  split.
  - apply (proj1 (unparsable_body_is_fatal DEFAULT_POLICY sample_session)).
    reflexivity.
  - apply (proj2 (unparsable_body_is_fatal DEFAULT_POLICY sample_session)).
    + repeat constructor. discriminate.
    + vm_compute. repeat split.
Defined.

Lemma empty_last_page_terminates_witness :
  pull DEFAULT_POLICY sample_session (requestList sample_session "rooms" [])
    (world_of empty_server)
  = (Ok (StopIteration, exhausted),
     log (EvRequest (mk_request sample_session GET rooms_url [] None))
       (world_of empty_server))
  /\ (forall fuel,
        drain DEFAULT_POLICY (S fuel) sample_session
          (requestList sample_session "rooms" []) (world_of empty_server)
        = ([], Stopped,
           log (EvRequest (mk_request sample_session GET rooms_url [] None))
             (world_of empty_server)))
  /\ (forall w2, pull DEFAULT_POLICY sample_session exhausted w2
                 = (Ok (StopIteration, exhausted), w2)).
Proof.
  apply (empty_last_page_terminates DEFAULT_POLICY sample_session
           (requestList sample_session "rooms" []) rooms_url []
           (world_of empty_server)); reflexivity.
Defined.

Lemma constructor_defaults_witness :
  @CiscoSparkAPI__init__ SpecRestSession
    (mkArgs (Some (PyStr "secret")) None None) bare_world
  = (session ← RestSession (PyStr "secret")
                 (PyStr "https://api.ciscospark.com/v1/") (PyInt 60);
     mret (wrap session (PyInt 60))) (after_env_read bare_world).
Proof.
  apply (proj2 (proj2 (proj2 (proj2 constructor_defaults)))).
  discriminate.
Defined.

Lemma wrong_type_raises_AssertionError_witness :
  @CiscoSparkAPI__init__ SpecRestSession
    (mkArgs (Some (PyInt 5)) None None) env_world
  = (Raise AssertionError, env_world)
  /\ is_ConfigurationError AssertionError = false.
Proof.
  apply wrong_type_raises_AssertionError. left. reflexivity.
Defined.

Lemma successful_construction_shares_one_session_witness :
  (exists tok,
     tok <> "" /\ resolves_to (mkArgs (Some (PyStr "secret")) None None)
                    bare_world tok
     /\ RestSession (PyStr tok)
          (bound_base_url (mkArgs (Some (PyStr "secret")) None None))
          (bound_timeout (mkArgs (Some (PyStr "secret")) None None))
          (after_env_read bare_world)
        = (Ok (_session sample_client), after_env_read bare_world))
  /\ people sample_client = PeopleAPI (_session sample_client)
  /\ rooms sample_client = RoomsAPI (_session sample_client)
  /\ memberships sample_client = MembershipsAPI (_session sample_client)
  /\ messages sample_client = MessagesAPI (_session sample_client)
  /\ teams sample_client = TeamsAPI (_session sample_client)
  /\ team_memberships sample_client
     = TeamMembershipsAPI (_session sample_client)
  /\ webhooks sample_client = WebhooksAPI (_session sample_client)
  /\ access_tokens sample_client
     = AccessTokensAPI (base_url sample_client)
         (bound_timeout (mkArgs (Some (PyStr "secret")) None None)).
Proof.
  apply (successful_construction_shares_one_session
           (mkArgs (Some (PyStr "secret")) None None) bare_world
           (after_env_read bare_world) sample_client).
  reflexivity.
Defined.

Lemma session_error_propagates_witness :
  @CiscoSparkAPI__init__ SpecRestSession
    (mkArgs (Some (PyStr "secret")) (Some (PyStr "")) None) bare_world
  = (Raise (ciscosparkapiException "base_url must not be empty"),
     after_env_read bare_world).
Proof.
  apply (session_error_propagates
           (mkArgs (Some (PyStr "secret")) (Some (PyStr "")) None)
           bare_world (after_env_read bare_world) "secret").
  - reflexivity.
  - apply from_argument. reflexivity.
  - discriminate.
  - reflexivity.
Defined.

Lemma value_checks_are_delegated_witness :
  @CiscoSparkAPI__init__ SpecRestSession
    (mkArgs (Some (PyStr "secret")) (Some (PyStr "")) (Some (PyInt (-5))))
    bare_world
  = (session ← RestSession (PyStr "secret") (PyStr "") (PyInt (-5));
     mret (wrap session (PyInt (-5)))) (after_env_read bare_world).
Proof.
  apply (proj1 (value_checks_are_delegated "secret" "" bare_world
                  ltac:(discriminate))).
Defined.
